(** * cloudstorage: the driver registry

    A shallow embedding of [cloudstorage/__init__.py]: the [DriverName]
    enumeration, the [_DRIVER_IMPORTS] table, [get_driver] and
    [get_driver_by_name], together with the part of the Python import
    system those functions and the module header (lines 6-16) exercise.

    Python objects are values of small inductive types, exceptions are
    values of [exception], and code that imports modules is a function of
    [sys.modules] written in a state-and-error monad. *)

From Stdlib Require Import ZArith Ascii DecimalString.
From stdpp Require Import gmap strings list fin_maps finite.


(** ** Strings *)

(** [infix needle hay]: [needle in hay] on Python strings. *)
Fixpoint infix (needle hay : string) : bool :=
  String.prefix needle hay ||
  match hay with
  | EmptyString => false
  | String _ hay' => infix needle hay'
  end.

(** ** Exceptions and results *)

(** The exception classes that can leave the functions of this file.  The
    payload is the value the exception is constructed with. *)
Inductive exception :=
| CloudStorageError (msg : string)      (* cloudstorage.exceptions, line 16 *)
| KeyError (key : string)               (* builtin, a LookupError *)
| ValueError (val : string)             (* builtin *)
| ImportError (name : string)           (* builtin: module [name] failed to import *)
| ImportNameError (name from : string)  (* ImportError: cannot import name *)
| AttributeError (obj attr : string).   (* builtin *)

(** Modelled from the spec: the class [CloudStorageError] lives in
    cloudstorage/exceptions.py, which is not part of the sources at hand.
    Section 4.1 of the specification makes it the root of the library's own
    closed hierarchy of error kinds; the builtin exceptions of the
    interpreter are not members of that hierarchy. *)
Definition is_CloudStorageError (e : exception) : bool :=
  match e with
  | CloudStorageError _ => true
  | _ => false
  end.

(** [isinstance(e, LookupError)] for the builtin hierarchy. *)
Definition is_LookupError (e : exception) : bool :=
  match e with
  | KeyError _ => true
  | _ => false
  end.

(** What an exception says about a string [s]: a [CloudStorageError]
    carries a message, which names [s] when [s] occurs in it; a [KeyError]
    carries the missing key itself. *)
Definition names (e : exception) (s : string) : bool :=
  match e with
  | CloudStorageError msg => infix s msg
  | KeyError key => String.eqb key s
  | ValueError val => String.eqb val s
  | ImportError name => String.eqb name s
  | ImportNameError name _ => String.eqb name s
  | AttributeError _ attr => String.eqb attr s
  end.

Inductive result (A : Type) :=
| Return (a : A)
| Raise (e : exception).
Arguments Return {A} a.
Arguments Raise {A} e.

(** ** The DriverName enumeration (lines 43-50) *)

Inductive DriverName := AZURE | CLOUDFILES | GOOGLESTORAGE | LOCAL | S3.

#[global] Instance DriverName_eq_dec : EqDecision DriverName.
Proof. solve_decision. Defined.

(** [list(DriverName)]: the members in definition order. *)
Definition members : list DriverName :=
  [AZURE; CLOUDFILES; GOOGLESTORAGE; LOCAL; S3].

Lemma members_NoDup : NoDup members.
Proof. compute_done. Qed.

Lemma members_all (d : DriverName) : d ∈ members.
Proof. destruct d; compute_done. Qed.

#[global] Instance DriverName_finite : Finite DriverName :=
  {| enum := members; NoDup_enum := members_NoDup; elem_of_enum := members_all |}.

(** [d.name]: the left-hand side of the member's assignment. *)
Definition name (d : DriverName) : string :=
  match d with
  | AZURE => "AZURE"
  | CLOUDFILES => "CLOUDFILES"
  | GOOGLESTORAGE => "GOOGLESTORAGE"
  | LOCAL => "LOCAL"
  | S3 => "S3"
  end.

(** [d.value]: the right-hand side of the member's assignment. *)
Definition value (d : DriverName) : string :=
  match d with
  | AZURE => "AZURE"
  | CLOUDFILES => "CLOUDFILES"
  | GOOGLESTORAGE => "GOOGLESTORAGE"
  | LOCAL => "LOCAL"
  | S3 => "S3"
  end.

(** The two dictionaries the Enum metaclass keeps for the class. *)
Definition _member_map_ : gmap string DriverName :=
  list_to_map ((λ d, (name d, d)) <$> members).

Definition _value2member_map_ : gmap string DriverName :=
  list_to_map ((λ d, (value d, d)) <$> members).

(** [DriverName[key]]: lookup by member name. *)
Definition DriverName_getitem (key : string) : result DriverName :=
  match _member_map_ !! key with
  | Some d => Return d
  | None => Raise (KeyError key)
  end.

(** [DriverName(val)]: lookup by member value. *)
Definition DriverName_call (val : string) : result DriverName :=
  match _value2member_map_ !! val with
  | Some d => Return d
  | None => Raise (ValueError val)
  end.

(** ** Objects passed as a provider identifier *)

(** Python does not enforce the annotation [driver: DriverName]; the
    embedding lets [get_driver] receive a member of the enumeration or one
    of the hashable scalars a caller may pass in its place.  Tuples, which
    the [%] of line 84 takes as an argument list, and unhashable objects,
    which line 79 cannot look up, are outside the embedding. *)
Inductive pyobject :=
| PyMember (d : DriverName)
| PyStr (s : string)
| PyInt (n : Z)
| PyNone.

(** [str(x)], as the [%s] conversion computes it. *)
Definition py_str (x : pyobject) : string :=
  match x with
  | PyMember d => "DriverName." +:+ name d
  | PyStr s => s
  | PyInt n => NilZero.string_of_int (Z.to_int n)
  | PyNone => "None"
  end.

(** ** Driver classes *)

(** The five driver modules under cloudstorage/drivers/ are not part of the
    sources at hand.  A class is identified by the module that binds it and
    the attribute it is bound to, which is how lines 11-15 and
    [_DRIVER_IMPORTS] refer to it. *)
Inductive object := Attribute (module attr : string).

#[global] Instance object_eq_dec : EqDecision object.
Proof. solve_decision. Defined.

Definition S3Driver := Attribute "cloudstorage.drivers.amazon" "S3Driver".
Definition GoogleStorageDriver :=
  Attribute "cloudstorage.drivers.google" "GoogleStorageDriver".
Definition LocalDriver := Attribute "cloudstorage.drivers.local" "LocalDriver".
Definition AzureStorageDriver :=
  Attribute "cloudstorage.drivers.microsoft" "AzureStorageDriver".
Definition CloudFilesDriver :=
  Attribute "cloudstorage.drivers.rackspace" "CloudFilesDriver".

(** [Drivers = Union[...]] (lines 34-40). *)
Definition Drivers : list object :=
  [AzureStorageDriver; CloudFilesDriver; GoogleStorageDriver; LocalDriver;
   S3Driver].

(** ** The registry table (lines 53-61) *)

Definition _DRIVER_IMPORTS : gmap DriverName (string * string) :=
  <[AZURE := ("cloudstorage.drivers.microsoft", "AzureStorageDriver")]>
  (<[CLOUDFILES := ("cloudstorage.drivers.rackspace", "CloudFilesDriver")]>
  (<[GOOGLESTORAGE := ("cloudstorage.drivers.google", "GoogleStorageDriver")]>
  (<[LOCAL := ("cloudstorage.drivers.local", "LocalDriver")]>
  (<[S3 := ("cloudstorage.drivers.amazon", "S3Driver")]> ∅)))).

(** [table.get(key)] for a table keyed by members.  A member hashes and
    compares by identity, so no string, integer or [None] equals a key.
    Objects of a class whose [__eq__] and [__hash__] imitate a member are
    outside the embedding. *)
Definition dict_get {V} (table : gmap DriverName V) (key : pyobject) : option V :=
  match key with
  | PyMember d => table !! d
  | _ => None
  end.

(** ** The interpreter: sys.modules and the import system *)

(** A module object is represented by the list of names its body binds;
    [sys.modules] maps dotted module names to module objects. *)
Definition py (A : Type) : Type :=
  gmap string (list string) → result A * gmap string (list string).

#[global] Instance py_ret : MRet py := λ A a st, (Return a, st).

#[global] Instance py_bind : MBind py := λ A B k m st,
  match m st with
  | (Return a, st') => k a st'
  | (Raise e, st') => (Raise e, st')
  end.

Definition raise {A} (e : exception) : py A := λ st, (Raise e, st).

(** The names at which a dotted module name can be cut:
    [prefixes_at_dots "" "a.b.c" = ["a"; "a.b"; "a.b.c"]]. *)
Fixpoint prefixes_at_dots (seen rest : string) : list string :=
  match rest with
  | EmptyString => [seen]
  | String c rest' =>
      if Ascii.eqb c "."%char
      then seen :: prefixes_at_dots (seen +:+ ".") rest'
      else prefixes_at_dots (seen +:+ String c EmptyString) rest'
  end.

(** A module followed by its parent packages, innermost first. *)
Definition ancestors (module : string) : list string :=
  reverse (prefixes_at_dots "" module).

(** An import statement of a module header. *)
Inductive statement :=
| Import (module : string)
| FromImport (module : string) (attrs : list string).

(** Lines 6-16. *)
Definition header : list statement :=
  [ Import "logging";
    FromImport "enum" ["Enum"; "unique"];
    FromImport "typing" ["Union"];
    FromImport "cloudstorage.base" ["Blob"; "Container"; "Driver"];
    FromImport "cloudstorage.drivers.amazon" ["S3Driver"];
    FromImport "cloudstorage.drivers.google" ["GoogleStorageDriver"];
    FromImport "cloudstorage.drivers.local" ["LocalDriver"];
    FromImport "cloudstorage.drivers.microsoft" ["AzureStorageDriver"];
    FromImport "cloudstorage.drivers.rackspace" ["CloudFilesDriver"];
    FromImport "cloudstorage.exceptions" ["CloudStorageError"] ].

(** The names the module body has bound once it has run to its end. *)
Definition module_globals : list string :=
  [ "logging"; "Enum"; "unique"; "Union"; "Blob"; "Container"; "Driver";
    "S3Driver"; "GoogleStorageDriver"; "LocalDriver"; "AzureStorageDriver";
    "CloudFilesDriver"; "CloudStorageError"; "__all__"; "__title__";
    "__version__"; "__author__"; "__license__"; "__copyright__"; "Drivers";
    "DriverName"; "_DRIVER_IMPORTS"; "get_driver"; "get_driver_by_name" ].

Section Interpreter.

(** What is installed around the package: [installed m] is the list of
    names the body of module [m] binds when it runs, and [None] when [m]
    cannot be imported, because it is absent or because its body fails on
    a dependency that is absent.  The bodies of the driver modules are
    not among the sources, so their outcome is a parameter.  [sys.modules]
    is followed for the modules this file names only: what a module body
    imports for itself is not recorded, and a body that fails is reported
    as the [ImportError] of its module. *)
Variable installed : string → option (list string).

(** Find, load and register one module whose parent is already there. *)
Definition load (module : string) : py unit := λ st,
  match st !! module with
  | Some _ => (Return (), st)
  | None =>
      match installed module with
      | Some ns => (Return (), <[module := ns]> st)
      | None => (Raise (ImportError module), st)
      end
  end.

(** importlib's [_find_and_load] along a chain [module :: parents]: a
    module found in [sys.modules] is returned at once, otherwise its
    parent package is imported first. *)
Fixpoint find_and_load (chain : list string) : py unit :=
  match chain with
  | [] => mret ()
  | module :: parents => λ st,
      match st !! module with
      | Some _ => (Return (), st)
      | None => (find_and_load parents ≫= λ _, load module) st
      end
  end.

(** [__import__(module, globals(), locals(), fromlist)] with a non-empty
    [fromlist]: the module itself is returned, as a pair of its name and
    the names it binds. *)
Definition sys_modules_getitem (module : string) : py (string * list string) :=
  λ st,
    match st !! module with
    | Some ns => (Return (module, ns), st)
    | None => (Raise (KeyError module), st)
    end.

Definition __import__ (module : string) : py (string * list string) :=
  find_and_load (ancestors module) ≫= λ _, sys_modules_getitem module.

(** [getattr(_mod, attr)] on a module object. *)
Definition getattr (_mod : string * list string) (attr : string) : py object :=
  if bool_decide (attr ∈ _mod.2)
  then mret (Attribute _mod.1 attr)
  else raise (AttributeError _mod.1 attr).

(** [from module import a, b, ...]: every name must be an attribute. *)
Fixpoint from_import (_mod : string * list string) (attrs : list string) : py unit :=
  match attrs with
  | [] => mret ()
  | attr :: attrs' =>
      if bool_decide (attr ∈ _mod.2)
      then from_import _mod attrs'
      else raise (ImportNameError attr _mod.1)
  end.

Definition exec (s : statement) : py unit :=
  match s with
  | Import module => __import__ module ≫= λ _, mret ()
  | FromImport module attrs => __import__ module ≫= λ _mod, from_import _mod attrs
  end.

Fixpoint exec_all (body : list statement) : py unit :=
  match body with
  | [] => mret ()
  | s :: body' => exec s ≫= λ _, exec_all body'
  end.

(** [import cloudstorage] in an interpreter that has not imported it: the
    module is entered into [sys.modules], its header runs, and the entry
    is withdrawn again if the body raises.  The definitions that follow
    the header (lines 18-109) and the logging call of line 113 bind names
    and cannot fail. *)
Definition import_cloudstorage : py unit := λ st,
  match exec_all header (<["cloudstorage" := []]> st) with
  | (Return _, st') => (Return (), <["cloudstorage" := module_globals]> st')
  | (Raise e, st') => (Raise e, delete "cloudstorage" st')
  end.

(** ** get_driver (lines 64-84) *)
Definition get_driver (driver : pyobject) : py object :=
  match dict_get _DRIVER_IMPORTS driver with
  | Some (mod_name, driver_name) =>
      __import__ mod_name ≫= λ _mod, getattr _mod driver_name
  | None =>
      raise (CloudStorageError ("Driver '" +:+ py_str driver +:+ "' does not exist."))
  end.

(** ** get_driver_by_name (lines 87-109) *)
Definition get_driver_by_name (driver_name : string) : py object :=
  match DriverName_getitem driver_name with
  | Return driver => get_driver (PyMember driver)
  | Raise e => raise e
  end.

End Interpreter.

(** ** Two installations *)

(** Everything the header asks for is installed. *)
Definition full_installation (module : string) : option (list string) :=
  (list_to_map
     [ ("logging", ["getLogger"; "NullHandler"]);
       ("enum", ["Enum"; "unique"]);
       ("typing", ["Union"]);
       ("cloudstorage", module_globals);
       ("cloudstorage.base", ["Blob"; "Container"; "Driver"]);
       ("cloudstorage.exceptions", ["CloudStorageError"]);
       ("cloudstorage.drivers", []);
       ("cloudstorage.drivers.amazon", ["S3Driver"]);
       ("cloudstorage.drivers.google", ["GoogleStorageDriver"]);
       ("cloudstorage.drivers.local", ["LocalDriver"]);
       ("cloudstorage.drivers.microsoft", ["AzureStorageDriver"]);
       ("cloudstorage.drivers.rackspace", ["CloudFilesDriver"]) ]
   : gmap string (list string)) !! module.

(** The same, except that the Amazon driver module cannot be imported (its
    SDK is not installed). *)
Definition without_amazon (module : string) : option (list string) :=
  if String.eqb module "cloudstorage.drivers.amazon" then None
  else full_installation module.

(** [sys.modules] after [import cloudstorage] in a fresh interpreter where
    everything is installed. *)
Definition fresh_import : gmap string (list string) :=
  (import_cloudstorage full_installation ∅).2.

(** ** States in which the package has been imported *)

(** Every module the registry table names is in [sys.modules] and binds the
    class the table names. *)
Definition registry_imported (st : gmap string (list string)) : Prop :=
  ∀ d mod_name driver_name,
    _DRIVER_IMPORTS !! d = Some (mod_name, driver_name) →
    ∃ ns, st !! mod_name = Some ns ∧ driver_name ∈ ns.

#[global] Instance statement_eq_dec : EqDecision statement.
Proof. solve_decision. Defined.

(** ** What the header asks of an installation *)

Definition statement_module (s : statement) : string :=
  match s with
  | Import module => module
  | FromImport module _ => module
  end.

Definition statement_attrs (s : statement) : list string :=
  match s with
  | Import _ => []
  | FromImport _ attrs => attrs
  end.

(** [available installed s]: the module that [s] names and its parent
    packages, the package [cloudstorage] itself apart, can be imported, and
    the module binds every name that [s] imports from it. *)
Definition available (installed : string → option (list string)) (s : statement) : bool :=
  forallb (λ p, String.eqb p "cloudstorage" || bool_decide (is_Some (installed p)))
          (ancestors (statement_module s))
  && match installed (statement_module s) with
     | Some ns => forallb (λ a, bool_decide (a ∈ ns)) (statement_attrs s)
     | None => false
     end.

(** Every module in [sys.modules], the package itself apart, is there as
    [installed] provides it. *)
Definition from_installation (installed : string → option (list string))
    (st : gmap string (list string)) : Prop :=
  ∀ k ns, st !! k = Some ns → k = "cloudstorage" ∨ installed k = Some ns.

(** * Properties *)

(** ** Strings *)

Lemma append_cons (a : ascii) (s t : string) :
  String a s +:+ t = String a (s +:+ t).
Proof. reflexivity. Qed.

Lemma append_assoc (a b c : string) : (a +:+ b) +:+ c = a +:+ (b +:+ c).
Proof.
  induction a as [|x a IH]; [reflexivity |].
  rewrite !append_cons. by f_equal.
Qed.

Lemma prefix_append (s t : string) : String.prefix s (s +:+ t) = true.
Proof.
  induction s as [|a s IH].
  - change ("" +:+ t) with t. by destruct t.
  - rewrite append_cons. simpl.
    destruct (Ascii.ascii_dec a a); [exact IH | done].
Qed.

Lemma infix_prefix (needle hay : string) :
  String.prefix needle hay = true → infix needle hay = true.
Proof. destruct hay; simpl; by intros ->. Qed.

Lemma infix_append (pre s post : string) : infix s (pre +:+ s +:+ post) = true.
Proof.
  induction pre as [|a pre IH].
  - change ("" +:+ s +:+ post) with (s +:+ post).
    apply infix_prefix, prefix_append.
  - rewrite append_cons. simpl. rewrite IH. apply orb_true_r.
Qed.

(** ** The enumeration *)

Lemma member_map_name (d : DriverName) : _member_map_ !! name d = Some d.
Proof. by destruct d; vm_compute. Qed.

Lemma value2member_map_value (d : DriverName) : _value2member_map_ !! value d = Some d.
Proof. by destruct d; vm_compute. Qed.

Lemma member_map_Some (key : string) (d : DriverName) :
  _member_map_ !! key = Some d → key = name d.
Proof.
  intros H. apply elem_of_list_to_map_2 in H.
  apply list_elem_of_fmap in H as (d' & [= -> ->] & _). done.
Qed.

Lemma member_map_None (key : string) :
  key ∉ ["AZURE"; "CLOUDFILES"; "GOOGLESTORAGE"; "LOCAL"; "S3"] →
  _member_map_ !! key = None.
Proof.
  intros H. destruct (_member_map_ !! key) as [d|] eqn:E; [|done].
  apply member_map_Some in E as ->. destruct H, d; compute_done.
Qed.

Lemma getitem_name (d : DriverName) : DriverName_getitem (name d) = Return d.
Proof. unfold DriverName_getitem. by rewrite member_map_name. Qed.

Lemma getitem_unknown (key : string) :
  key ∉ ["AZURE"; "CLOUDFILES"; "GOOGLESTORAGE"; "LOCAL"; "S3"] →
  DriverName_getitem key = Raise (KeyError key).
Proof. intros H. unfold DriverName_getitem. by rewrite member_map_None. Qed.

(** The registry table has an entry for every member and for nothing else. *)
Lemma registry_total (d : DriverName) : is_Some (_DRIVER_IMPORTS !! d).
Proof. destruct d; vm_compute; eauto. Qed.

Lemma dict_get_member {V} (table : gmap DriverName V) (key : pyobject) (v : V) :
  dict_get table key = Some v → ∃ d, key = PyMember d ∧ table !! d = Some v.
Proof. destruct key; simpl; [eauto | done..]. Qed.

(** ** The import system *)

Ltac unfold_py := unfold mbind, py_bind, mret, py_ret, raise in *.

Lemma prefixes_at_dots_last (seen rest : string) :
  ∃ shorter, prefixes_at_dots seen rest = shorter ++ [seen +:+ rest].
Proof.
  revert seen. induction rest as [|c rest IH]; intros seen; simpl.
  - exists []. simpl. f_equal. clear. induction seen as [|a s IH]; [done |].
    rewrite append_cons. by f_equal.
  - destruct (Ascii.eqb_spec c "."%char) as [-> | _].
    + destruct (IH (seen +:+ ".")) as [l ->]. exists (seen :: l).
      rewrite append_assoc. reflexivity.
    + destruct (IH (seen +:+ String c "")) as [l ->]. exists l.
      rewrite append_assoc. reflexivity.
Qed.

(** The chain of a module starts with the module itself. *)
Lemma ancestors_cons (module : string) :
  ∃ parents, ancestors module = module :: parents.
Proof.
  unfold ancestors. destruct (prefixes_at_dots_last "" module) as [l ->].
  exists (reverse l). by rewrite reverse_app.
Qed.

Section ImportSystem.

Variable installed : string → option (list string).

Implicit Types (st : gmap string (list string)) (chain : list string).

(** Imports only ever add modules to [sys.modules]. *)
Lemma load_mono module r st st' :
  load installed module st = (r, st') → st ⊆ st'.
Proof.
  unfold load. destruct (st !! module) eqn:E; [by intros [= <- <-] |].
  destruct (installed module); intros [= <- <-]; [by apply insert_subseteq | done].
Qed.

Lemma find_and_load_mono chain r st st' :
  find_and_load installed chain st = (r, st') → st ⊆ st'.
Proof.
  revert r st st'. induction chain as [|m parents IH]; intros r st st'; simpl.
  - by intros [= <- <-].
  - destruct (st !! m); [by intros [= <- <-] |]. unfold_py.
    destruct (find_and_load installed parents st) as [[[]|e] st1] eqn:E.
    + intros H%load_mono. apply IH in E. by etrans.
    + intros [= <- <-]. eauto.
Qed.

(** ... and they touch no module outside the chain that is imported. *)
Lemma load_frame module r st st' k :
  k ≠ module → load installed module st = (r, st') → st' !! k = st !! k.
Proof.
  intros Hk. unfold load. destruct (st !! module) eqn:E; [by intros [= <- <-] |].
  destruct (installed module); intros [= <- <-]; [by rewrite lookup_insert_ne | done].
Qed.

Lemma find_and_load_frame chain r st st' k :
  k ∉ chain → find_and_load installed chain st = (r, st') → st' !! k = st !! k.
Proof.
  revert r st st'. induction chain as [|m parents IH]; intros r st st' Hk; simpl.
  - by intros [= <- <-].
  - apply not_elem_of_cons in Hk as [Hm Hk].
    destruct (st !! m); [by intros [= <- <-] |]. unfold_py.
    destruct (find_and_load installed parents st) as [[[]|e] st1] eqn:E.
    + intros H%(load_frame _ _ _ _ k); [|done]. rewrite H. eauto.
    + intros [= <- <-]. eauto.
Qed.

(** A successful import leaves the module in [sys.modules]. *)
Lemma find_and_load_loaded module parents st st' :
  find_and_load installed (module :: parents) st = (Return (), st') →
  is_Some (st' !! module).
Proof.
  simpl. destruct (st !! module) eqn:E; [intros [= <-]; by rewrite E |].
  unfold_py. destruct (find_and_load installed parents st) as [[[]|e] st1]; [|done].
  unfold load. destruct (st1 !! module) eqn:E1; [intros [= <-]; by rewrite E1 |].
  destruct (installed module); [|done]. intros [= <-]. by rewrite lookup_insert_eq.
Qed.

(** Importing again gives the same outcome and changes nothing. *)
Lemma find_and_load_again chain r st st' :
  NoDup chain →
  find_and_load installed chain st = (r, st') →
  find_and_load installed chain st' = (r, st').
Proof.
  revert r st st'. induction chain as [|m parents IH]; intros r st st' Hnd; simpl.
  - by intros [= <- <-].
  - apply NoDup_cons in Hnd as [Hm Hnd].
    destruct (st !! m) eqn:Em; [intros [= <- <-]; by rewrite Em |]. unfold_py.
    destruct (find_and_load installed parents st) as [[[]|e] st1] eqn:E.
    + pose proof (find_and_load_frame _ _ _ _ _ Hm E) as Hfr.
      rewrite Em in Hfr. apply IH in E; [|done].
      unfold load. rewrite Hfr. destruct (installed m) as [ns|] eqn:Ei.
      * intros [= <- <-]. by rewrite lookup_insert_eq.
      * intros [= <- <-]. by rewrite Hfr, E, Hfr.
    + intros [= <- <-].
      pose proof (find_and_load_frame _ _ _ _ _ Hm E) as Hfr.
      rewrite Em in Hfr. rewrite Hfr. by rewrite (IH _ _ _ Hnd E).
Qed.

Lemma import_loaded module ns st :
  st !! module = Some ns →
  __import__ installed module st = (Return (module, ns), st).
Proof.
  intros H. unfold __import__. destruct (ancestors_cons module) as [ps ->].
  unfold_py. simpl. rewrite H. unfold sys_modules_getitem. by rewrite H.
Qed.

Lemma import_mono module r st st' :
  __import__ installed module st = (r, st') → st ⊆ st'.
Proof.
  unfold __import__. unfold_py.
  destruct (find_and_load installed (ancestors module) st) as [[[]|e] st1] eqn:E.
  - unfold sys_modules_getitem.
    destruct (st1 !! module); intros [= <- <-]; by eapply find_and_load_mono.
  - intros [= <- <-]. by eapply find_and_load_mono.
Qed.

Lemma import_Return module _mod st st' :
  __import__ installed module st = (Return _mod, st') →
  _mod.1 = module ∧ st' !! module = Some _mod.2.
Proof.
  unfold __import__. unfold_py.
  destruct (find_and_load installed (ancestors module) st) as [[[]|e] st1]; [|done].
  unfold sys_modules_getitem.
  destruct (st1 !! module) eqn:E; intros [= <- <-]; done.
Qed.

Lemma import_again module r st st' :
  NoDup (ancestors module) →
  __import__ installed module st = (r, st') →
  __import__ installed module st' = (r, st').
Proof.
  intros Hnd. unfold __import__. unfold_py.
  destruct (find_and_load installed (ancestors module) st) as [[[]|e] st1] eqn:E.
  - unfold sys_modules_getitem at 1.
    destruct (st1 !! module) eqn:E1; intros [= <- <-];
      rewrite (find_and_load_again _ _ _ _ Hnd E);
      unfold sys_modules_getitem; by rewrite E1.
  - intros [= <- <-]. by rewrite (find_and_load_again _ _ _ _ Hnd E).
Qed.

End ImportSystem.

(** ** The module header *)

Section Header.

Variable installed : string → option (list string).

Implicit Types (st : gmap string (list string)).

Lemma from_import_state _mod attrs r st st' :
  from_import _mod attrs st = (r, st') → st' = st.
Proof.
  induction attrs as [|a attrs IH]; simpl; [by intros [= <- <-] |].
  case_bool_decide; [done | by intros [= <- <-]].
Qed.

Lemma from_import_Return _mod attrs st st' :
  from_import _mod attrs st = (Return (), st') → ∀ a, a ∈ attrs → a ∈ _mod.2.
Proof.
  induction attrs as [|a attrs IH]; simpl; intros H b Hb.
  - by apply elem_of_nil in Hb.
  - case_bool_decide; [|done].
    apply elem_of_cons in Hb as [-> | Hb]; eauto.
Qed.

Lemma exec_mono s r st st' : exec installed s st = (r, st') → st ⊆ st'.
Proof.
  destruct s as [m | m attrs]; simpl; unfold_py.
  - destruct (__import__ installed m st) as [[_mod|e] st1] eqn:E;
      intros [= <- <-]; by eapply import_mono.
  - destruct (__import__ installed m st) as [[_mod|e] st1] eqn:E.
    + intros ->%from_import_state. by eapply import_mono.
    + intros [= <- <-]. by eapply import_mono.
Qed.

Lemma exec_all_mono body r st st' :
  exec_all installed body st = (r, st') → st ⊆ st'.
Proof.
  revert st. induction body as [|s body IH]; intros st; simpl.
  - by intros [= <- <-].
  - unfold_py. destruct (exec installed s st) as [[[]|e] st1] eqn:E.
    + intros H%IH. apply exec_mono in E. by etrans.
    + intros [= <- <-]. by eapply exec_mono.
Qed.

Lemma exec_FromImport m attrs st st' :
  exec installed (FromImport m attrs) st = (Return (), st') →
  ∃ ns, st' !! m = Some ns ∧ ∀ a, a ∈ attrs → a ∈ ns.
Proof.
  simpl. unfold_py.
  destruct (__import__ installed m st) as [[_mod|e] st1] eqn:E; [|done].
  intros H. pose proof (from_import_state _ _ _ _ _ H) as ->.
  apply import_Return in E as [_ E]. exists _mod.2. split; [done |].
  by eapply from_import_Return.
Qed.

(** When the header has run to its end, every module it imports from is
    loaded and binds the names imported from it. *)
Lemma exec_all_FromImport body m attrs st st' :
  exec_all installed body st = (Return (), st') →
  FromImport m attrs ∈ body →
  ∃ ns, st' !! m = Some ns ∧ ∀ a, a ∈ attrs → a ∈ ns.
Proof.
  revert st. induction body as [|s body IH]; intros st; simpl; intros H Hin.
  - by apply elem_of_nil in Hin.
  - unfold_py. destruct (exec installed s st) as [[[]|e] st1] eqn:E; [|done].
    apply elem_of_cons in Hin as [<- | Hin]; [|by eapply IH].
    apply exec_FromImport in E as (ns & Hns & Hattrs).
    exists ns. split; [|done].
    eapply lookup_weaken; [done | by eapply exec_all_mono].
Qed.

Lemma registry_in_header d mod_name driver_name :
  _DRIVER_IMPORTS !! d = Some (mod_name, driver_name) →
  FromImport mod_name [driver_name] ∈ header ∧ mod_name ≠ "cloudstorage".
Proof.
  intros H. destruct d; vm_compute in H; injection H as <- <-;
    (split; [compute_done | discriminate]).
Qed.

Lemma import_cloudstorage_imported st0 st :
  import_cloudstorage installed st0 = (Return (), st) → registry_imported st.
Proof.
  unfold import_cloudstorage.
  destruct (exec_all installed header _) as [[[]|e] st1] eqn:E; [|done].
  intros [= <-] d mod_name driver_name [Hin Hne]%registry_in_header.
  destruct (exec_all_FromImport _ _ _ _ _ E Hin) as (ns & Hns & Hattrs).
  exists ns. rewrite lookup_insert_ne by done. split; [done |].
  apply Hattrs. constructor.
Qed.

End Header.

(** ** get_driver *)

Section Registry.

Variable installed : string → option (list string).

Implicit Types (st : gmap string (list string)).

Lemma getattr_state _mod attr r st st' :
  getattr _mod attr st = (r, st') → st' = st.
Proof. unfold getattr. case_bool_decide; by intros [= <- <-]. Qed.

(** Lines 80-82, once line 79 has found the entry. *)
Lemma get_driver_member d mod_name driver_name st :
  _DRIVER_IMPORTS !! d = Some (mod_name, driver_name) →
  get_driver installed (PyMember d) st =
  (__import__ installed mod_name ≫= λ _mod, getattr _mod driver_name) st.
Proof. intros H. unfold get_driver. simpl. by rewrite H. Qed.

(** Line 84, when line 79 finds nothing. *)
Lemma get_driver_unknown driver st :
  dict_get _DRIVER_IMPORTS driver = None →
  get_driver installed driver st =
  (Raise (CloudStorageError ("Driver '" +:+ py_str driver +:+ "' does not exist.")), st).
Proof. intros H. unfold get_driver. by rewrite H. Qed.

Lemma get_driver_imported d mod_name driver_name st :
  registry_imported st →
  _DRIVER_IMPORTS !! d = Some (mod_name, driver_name) →
  get_driver installed (PyMember d) st = (Return (Attribute mod_name driver_name), st).
Proof.
  intros Hst H. rewrite (get_driver_member _ _ _ _ H).
  destruct (Hst _ _ _ H) as (ns & Hns & Hin). unfold_py.
  rewrite (import_loaded _ _ _ _ Hns). unfold getattr. simpl.
  by rewrite bool_decide_true.
Qed.

(** Whatever the state, a class that [get_driver] returns is the one the
    table names for the member. *)
Lemma get_driver_Return driver cls st st' :
  get_driver installed driver st = (Return cls, st') →
  ∃ d mod_name driver_name,
    driver = PyMember d ∧
    _DRIVER_IMPORTS !! d = Some (mod_name, driver_name) ∧
    cls = Attribute mod_name driver_name.
Proof.
  unfold get_driver.
  destruct (dict_get _DRIVER_IMPORTS driver) as [[m a]|] eqn:E; [|done].
  apply dict_get_member in E as (d & -> & Hd). unfold_py.
  destruct (__import__ installed m st) as [[_mod|e] st1] eqn:Ei; [|done].
  apply import_Return in Ei as [Hm _]. unfold getattr.
  case_bool_decide; [|done]. intros [= <- <-]. rewrite Hm. eauto 6.
Qed.

Lemma registry_chain_NoDup d mod_name driver_name :
  _DRIVER_IMPORTS !! d = Some (mod_name, driver_name) →
  NoDup (ancestors mod_name).
Proof.
  intros H. destruct d; vm_compute in H; injection H as <- <-; compute_done.
Qed.

(** A second call sees the outcome of the first and changes nothing. *)
Lemma get_driver_again driver r st st' :
  get_driver installed driver st = (r, st') →
  get_driver installed driver st' = (r, st').
Proof.
  unfold get_driver.
  destruct (dict_get _DRIVER_IMPORTS driver) as [[m a]|] eqn:E;
    [|by intros [= <- <-]].
  apply dict_get_member in E as (d & -> & Hd%registry_chain_NoDup). unfold_py.
  destruct (__import__ installed m st) as [[_mod|e] st1] eqn:Ei.
  - intros H. pose proof (getattr_state _ _ _ _ _ H) as ->.
    by rewrite (import_again _ _ _ _ _ Hd Ei).
  - intros [= <- <-]. by rewrite (import_again _ _ _ _ _ Hd Ei).
Qed.

(** What a member can make [get_driver] raise comes from the import
    system or from [getattr]; it is never the error of line 84. *)
Lemma find_and_load_raises chain e st st' :
  find_and_load installed chain st = (Raise e, st') →
  is_CloudStorageError e = false.
Proof.
  revert st st'. induction chain as [|m parents IH]; intros st st'; simpl; [done |].
  destruct (st !! m); [done |]. unfold_py.
  destruct (find_and_load installed parents st) as [[[]|e'] st1] eqn:E.
  - unfold load. destruct (st1 !! m); [done |].
    destruct (installed m); [done |]. by intros [= <- <-].
  - intros [= <- <-]. by eapply IH.
Qed.

Lemma import_raises module e st st' :
  __import__ installed module st = (Raise e, st') →
  is_CloudStorageError e = false.
Proof.
  unfold __import__. unfold_py.
  destruct (find_and_load installed (ancestors module) st) as [[[]|e'] st1] eqn:E.
  - unfold sys_modules_getitem. destruct (st1 !! module); [done |].
    by intros [= <- <-].
  - intros [= <- <-]. by eapply find_and_load_raises.
Qed.

Lemma get_driver_member_raises d msg st st' :
  get_driver installed (PyMember d) st ≠ (Raise (CloudStorageError msg), st').
Proof.
  destruct (registry_total d) as [[m a] Hd].
  rewrite (get_driver_member _ _ _ _ Hd). unfold_py.
  destruct (__import__ installed m st) as [[_mod|e] st1] eqn:E.
  - unfold getattr. case_bool_decide; done.
  - intros [= -> ->]. by apply import_raises in E.
Qed.

Lemma registry_imported_mono st st' :
  st ⊆ st' → registry_imported st → registry_imported st'.
Proof.
  intros Hsub Hst d m a H. destruct (Hst _ _ _ H) as (ns & Hns & Hin).
  exists ns. split; [|done]. by eapply lookup_weaken.
Qed.

Lemma get_driver_by_name_name d st :
  get_driver_by_name installed (name d) st = get_driver installed (PyMember d) st.
Proof. unfold get_driver_by_name. by rewrite getitem_name. Qed.

Lemma get_driver_by_name_unknown driver_name st :
  driver_name ∉ ["AZURE"; "CLOUDFILES"; "GOOGLESTORAGE"; "LOCAL"; "S3"] →
  get_driver_by_name installed driver_name st = (Raise (KeyError driver_name), st).
Proof. intros H. unfold get_driver_by_name. by rewrite getitem_unknown. Qed.

Lemma get_driver_by_name_Return driver_name cls st st' :
  get_driver_by_name installed driver_name st = (Return cls, st') →
  ∃ d, driver_name = name d ∧
       get_driver installed (PyMember d) st = (Return cls, st').
Proof.
  unfold get_driver_by_name, DriverName_getitem.
  destruct (_member_map_ !! driver_name) as [d|] eqn:E; [|done].
  apply member_map_Some in E. eauto.
Qed.

Lemma get_driver_by_name_again driver_name r st st' :
  get_driver_by_name installed driver_name st = (r, st') →
  get_driver_by_name installed driver_name st' = (r, st').
Proof.
  unfold get_driver_by_name.
  destruct (DriverName_getitem driver_name); [apply get_driver_again |].
  by intros [= <- <-].
Qed.

End Registry.

(** * The registry claims *)

(** C1.  Evaluation of the code at an unknown provider name, in an
    interpreter that has imported the package.  Given the string "local",
    which is not one of the five member names, [get_driver_by_name] fails
    in the enum lookup of line 108 with the builtin [KeyError] for that
    string, which is not a [CloudStorageError]; nothing converts it.  The
    sibling [get_driver], given the same string, reaches line 84 and raises
    [CloudStorageError] with a message that names it. *)
Theorem unknown_name_raises_KeyError :
  ("local" ∉ ["AZURE"; "CLOUDFILES"; "GOOGLESTORAGE"; "LOCAL"; "S3"]) ∧
  get_driver_by_name full_installation "local" fresh_import =
    (Raise (KeyError "local"), fresh_import) ∧
  is_CloudStorageError (KeyError "local") = false ∧
  get_driver full_installation (PyStr "local") fresh_import =
    (Raise (CloudStorageError "Driver 'local' does not exist."), fresh_import) ∧
  is_CloudStorageError (CloudStorageError "Driver 'local' does not exist.") = true ∧
  names (CloudStorageError "Driver 'local' does not exist.") "local" = true.
Proof.
  split; [compute_done |].
  split; [apply get_driver_by_name_unknown; compute_done |].
  split; [reflexivity |].
  split; [by apply get_driver_unknown |].
  split; [reflexivity |]. apply (infix_append "Driver '" "local" "' does not exist.").
Qed.

(** C2.  Evaluation of the code where the Amazon driver module cannot be
    imported and the caller wants the local driver.  Importing the package
    runs the header, which imports every driver module, so the import of
    the package fails on the Amazon module and [get_driver] cannot be
    reached.  Where everything is installed, all five driver modules are in
    [sys.modules] as soon as the package is imported, before any identifier
    is requested.  The body of [get_driver] alone, entered with nothing but
    the package loaded, would have returned the local driver. *)
Theorem header_imports_every_driver :
  (import_cloudstorage without_amazon ∅).1 =
    Raise (ImportError "cloudstorage.drivers.amazon") ∧
  (import_cloudstorage full_installation ∅).1 = Return () ∧
  Forall (λ module, is_Some ((import_cloudstorage full_installation ∅).2 !! module))
    [ "cloudstorage.drivers.amazon"; "cloudstorage.drivers.google";
      "cloudstorage.drivers.local"; "cloudstorage.drivers.microsoft";
      "cloudstorage.drivers.rackspace" ] ∧
  (get_driver without_amazon (PyMember LOCAL) {["cloudstorage" := module_globals]}).1 =
    Return LocalDriver.
Proof.
  split; [reflexivity |]. split; [reflexivity |]. split; [|reflexivity].
  repeat (apply Forall_cons; split; [compute_done |]). apply Forall_nil_2.
Qed.

(** C3.  For every member [d], [get_driver_by_name(d.name)] is the same
    computation as [get_driver(d)]: in every interpreter state both return
    the same class (or raise the same import error) and leave the same
    state; in particular for "LOCAL" and [DriverName.LOCAL]. *)
Theorem by_name_agrees_with_by_member
    (installed : string → option (list string))
    (d : DriverName) (st : gmap string (list string)) :
  get_driver_by_name installed (name d) st = get_driver installed (PyMember d) st ∧
  get_driver_by_name installed "LOCAL" st = get_driver installed (PyMember LOCAL) st.
Proof.
  split; [apply get_driver_by_name_name |].
  apply (get_driver_by_name_name installed LOCAL).
Qed.

(** C4.  Once the package has been imported (and whatever has been imported
    since), [get_driver] returns for every member of [DriverName]: line 79
    finds the member in [_DRIVER_IMPORTS], the module is already loaded,
    and the class returned is one of [Drivers].  In no state at all does a
    member reach the [CloudStorageError] of line 84. *)
Theorem get_driver_member_returns
    (installed : string → option (list string))
    (st0 st st' : gmap string (list string)) (d : DriverName) :
  import_cloudstorage installed st0 = (Return (), st) →
  st ⊆ st' →
  is_Some (dict_get _DRIVER_IMPORTS (PyMember d)) ∧
  (∃ cls, get_driver installed (PyMember d) st' = (Return cls, st') ∧
          cls ∈ Drivers) ∧
  (∀ st'' msg,
     (get_driver installed (PyMember d) st'').1 ≠ Raise (CloudStorageError msg)).
Proof.
  intros Himp Hsub.
  pose proof (import_cloudstorage_imported _ _ _ Himp) as Hst.
  apply (registry_imported_mono _ _ Hsub) in Hst.
  destruct (registry_total d) as [[m a] Hd].
  split; [simpl; by rewrite Hd |]. split.
  - exists (Attribute m a). split; [by apply get_driver_imported |].
    destruct d; vm_compute in Hd; injection Hd as <- <-; compute_done.
  - intros st'' msg H.
    destruct (get_driver installed (PyMember d) st'') as [r st1] eqn:E.
    simpl in H. subst r.
    by apply get_driver_member_raises in E.
Qed.

Lemma get_driver_member_returns_witness :
  import_cloudstorage full_installation ∅ = (Return (), fresh_import) ∧
  fresh_import ⊆ fresh_import ∧
  is_Some (dict_get _DRIVER_IMPORTS (PyMember LOCAL)) ∧
  (∃ cls, get_driver full_installation (PyMember LOCAL) fresh_import =
            (Return cls, fresh_import) ∧
          cls ∈ Drivers) ∧
  (∀ st'' msg,
     (get_driver full_installation (PyMember LOCAL) st'').1 ≠
       Raise (CloudStorageError msg)).
Proof.
  split; [vm_compute; reflexivity |]. split; [reflexivity |].
  apply (get_driver_member_returns full_installation ∅ fresh_import fresh_import LOCAL);
    [vm_compute; reflexivity | reflexivity].
Defined.

(** C5.  [DriverName] has exactly the members AZURE, CLOUDFILES,
    GOOGLESTORAGE, LOCAL and S3, and once the package is imported the
    registry resolves each of them to the class the header imports under
    the provider's name: AZURE to [AzureStorageDriver], CLOUDFILES to
    [CloudFilesDriver], GOOGLESTORAGE to [GoogleStorageDriver], LOCAL to
    [LocalDriver] and S3 to [S3Driver]. *)
Theorem registry_maps_each_identifier
    (installed : string → option (list string))
    (st0 st : gmap string (list string)) :
  import_cloudstorage installed st0 = (Return (), st) →
  (∀ d : DriverName, d ∈ [AZURE; CLOUDFILES; GOOGLESTORAGE; LOCAL; S3]) ∧
  NoDup (enum DriverName) ∧
  name <$> enum DriverName = ["AZURE"; "CLOUDFILES"; "GOOGLESTORAGE"; "LOCAL"; "S3"] ∧
  dom _DRIVER_IMPORTS = list_to_set (enum DriverName) ∧
  get_driver installed (PyMember AZURE) st = (Return AzureStorageDriver, st) ∧
  get_driver installed (PyMember CLOUDFILES) st = (Return CloudFilesDriver, st) ∧
  get_driver installed (PyMember GOOGLESTORAGE) st = (Return GoogleStorageDriver, st) ∧
  get_driver installed (PyMember LOCAL) st = (Return LocalDriver, st) ∧
  get_driver installed (PyMember S3) st = (Return S3Driver, st).
Proof.
  intros Hst%import_cloudstorage_imported.
  split; [apply members_all |]. split; [apply NoDup_enum |].
  split; [reflexivity |]. split.
  { apply set_eq. intros d. rewrite elem_of_dom, elem_of_list_to_set.
    split; [intros _; apply elem_of_enum | intros _; apply registry_total]. }
  repeat split; by apply get_driver_imported.
Qed.

Lemma registry_maps_each_identifier_witness :
  import_cloudstorage full_installation ∅ = (Return (), fresh_import) ∧
  (∀ d : DriverName, d ∈ [AZURE; CLOUDFILES; GOOGLESTORAGE; LOCAL; S3]) ∧
  NoDup (enum DriverName) ∧
  name <$> enum DriverName = ["AZURE"; "CLOUDFILES"; "GOOGLESTORAGE"; "LOCAL"; "S3"] ∧
  dom _DRIVER_IMPORTS = list_to_set (enum DriverName) ∧
  get_driver full_installation (PyMember AZURE) fresh_import =
    (Return AzureStorageDriver, fresh_import) ∧
  get_driver full_installation (PyMember CLOUDFILES) fresh_import =
    (Return CloudFilesDriver, fresh_import) ∧
  get_driver full_installation (PyMember GOOGLESTORAGE) fresh_import =
    (Return GoogleStorageDriver, fresh_import) ∧
  get_driver full_installation (PyMember LOCAL) fresh_import =
    (Return LocalDriver, fresh_import) ∧
  get_driver full_installation (PyMember S3) fresh_import =
    (Return S3Driver, fresh_import).
Proof.
  split; [vm_compute; reflexivity |].
  apply (registry_maps_each_identifier full_installation ∅ fresh_import).
  vm_compute; reflexivity.
Defined.



(** C7.  Registry lookup is deterministic.  Two calls of [get_driver] with
    the same identifier that both return, in whatever interpreter states
    and installations, return the same class, and so do two calls of
    [get_driver_by_name] with the same string.  A call repeated right after
    the first has the outcome of the first, class or error, and changes
    nothing. *)
Theorem registry_lookup_deterministic
    (installed installed' : string → option (list string))
    (driver : pyobject) (driver_name : string)
    (st st' : gmap string (list string)) :
  (∀ cls cls',
     (get_driver installed driver st).1 = Return cls →
     (get_driver installed' driver st').1 = Return cls' →
     cls = cls') ∧
  (∀ cls cls',
     (get_driver_by_name installed driver_name st).1 = Return cls →
     (get_driver_by_name installed' driver_name st').1 = Return cls' →
     cls = cls') ∧
  get_driver installed driver (get_driver installed driver st).2 =
    get_driver installed driver st ∧
  get_driver_by_name installed driver_name (get_driver_by_name installed driver_name st).2 =
    get_driver_by_name installed driver_name st.
Proof.
  assert (Hdet : ∀ drv s s' cls cls',
             (get_driver installed drv s).1 = Return cls →
             (get_driver installed' drv s').1 = Return cls' → cls = cls').
  { intros drv s s' cls cls' H H'.
    destruct (get_driver installed drv s) as [r s1] eqn:E.
    destruct (get_driver installed' drv s') as [r' s1'] eqn:E'.
    simpl in H, H'. subst r r'.
    apply get_driver_Return in E as (d & m & a & -> & Hd & ->).
    apply get_driver_Return in E' as (d' & m' & a' & [= <-] & Hd' & ->).
    rewrite Hd in Hd'. by injection Hd' as <- <-. }
  split; [apply Hdet |]. split.
  - intros cls cls' H H'.
    destruct (get_driver_by_name installed driver_name st) as [r s1] eqn:E.
    destruct (get_driver_by_name installed' driver_name st') as [r' s1'] eqn:E'.
    simpl in H, H'. subst r r'.
    apply get_driver_by_name_Return in E as (d & -> & E).
    apply get_driver_by_name_Return in E' as (d' & Hn & E').
    assert (d' = d) as ->.
    { pose proof (member_map_name d) as Hm. rewrite Hn in Hm.
      rewrite member_map_name in Hm. by injection Hm. }
    eapply (Hdet (PyMember d) st st'); [by rewrite E | by rewrite E'].
  - split.
    + destruct (get_driver installed driver st) as [r s1] eqn:E.
      simpl. by eapply get_driver_again.
    + destruct (get_driver_by_name installed driver_name st) as [r s1] eqn:E.
      simpl. by eapply get_driver_by_name_again.
Qed.

Lemma registry_lookup_deterministic_witness :
  (get_driver without_amazon (PyMember LOCAL) ∅).1 = Return LocalDriver ∧
  (get_driver full_installation (PyMember LOCAL) fresh_import).1 = Return LocalDriver ∧
  (get_driver_by_name without_amazon "LOCAL" ∅).1 = Return LocalDriver ∧
  (get_driver_by_name full_installation "LOCAL" fresh_import).1 = Return LocalDriver ∧
  LocalDriver = LocalDriver.
Proof.
  split; [reflexivity |]. split; [reflexivity |].
  split; [reflexivity |]. split; [reflexivity |].
  apply (proj1 (registry_lookup_deterministic without_amazon full_installation
                  (PyMember LOCAL) "LOCAL" ∅ fresh_import));
    reflexivity.
Defined.

(** C8.  For every member [d] of [DriverName] the value string equals the
    name ([d.value = d.name]), so lookup by name and construction from the
    value agree: [DriverName[d.value]] is [d], as is [DriverName(d.value)]. *)
Theorem value_is_name (d : DriverName) :
  value d = name d ∧
  DriverName_getitem (value d) = Return d ∧
  DriverName_call (value d) = Return d ∧
  DriverName_call (name d) = DriverName_getitem (value d).
Proof. by destruct d; vm_compute. Qed.

(** * Further properties of the registry code *)

(** ** The enumeration as a lookup table *)

Lemma value2member_map_Some (val : string) (d : DriverName) :
  _value2member_map_ !! val = Some d → val = value d.
Proof.
  intros H. apply elem_of_list_to_map_2 in H.
  apply list_elem_of_fmap in H as (d' & [= -> ->] & _). done.
Qed.

(** X1.  [DriverName[key]] returns the member [d] exactly when [key] is
    [d.name]; any other key raises [KeyError] for that key.  Hence two
    members with the same name are the same member. *)
Theorem getitem_inverts_name (key : string) (d : DriverName) :
  (DriverName_getitem key = Return d ↔ key = name d) ∧
  (DriverName_getitem key = Raise (KeyError key) ↔ ∀ d', key ≠ name d') ∧
  (∀ d', name d = name d' ↔ d = d').
Proof.
  split; [|split].
  - split; [|intros ->; apply getitem_name].
    unfold DriverName_getitem.
    destruct (_member_map_ !! key) as [d'|] eqn:E; [|done].
    intros [= ->]. by apply member_map_Some.
  - unfold DriverName_getitem.
    destruct (_member_map_ !! key) as [d'|] eqn:E.
    + apply member_map_Some in E. split; [done |]. intros H. by destruct (H d').
    + split; [|done]. intros _ d' ->. by rewrite member_map_name in E.
  - intros d'. split; [|by intros ->]. by destruct d, d'.
Qed.

(** X2.  The values of the members are pairwise distinct, which is what the
    [@unique] decorator of line 43 demands, and [DriverName(val)] returns
    the member [d] exactly when [val] is [d.value]; any other value raises
    [ValueError]. *)
Theorem call_inverts_value (val : string) (d : DriverName) :
  (DriverName_call val = Return d ↔ val = value d) ∧
  (DriverName_call val = Raise (ValueError val) ↔ ∀ d', val ≠ value d') ∧
  (∀ d', value d = value d' ↔ d = d') ∧
  NoDup (value <$> enum DriverName).
Proof.
  split; [|split; [|split]].
  - unfold DriverName_call. split.
    + destruct (_value2member_map_ !! val) as [d'|] eqn:E; [|done].
      intros [= ->]. by apply value2member_map_Some.
    + intros ->. by rewrite value2member_map_value.
  - unfold DriverName_call.
    destruct (_value2member_map_ !! val) as [d'|] eqn:E.
    + apply value2member_map_Some in E. split; [done |]. intros H. by destruct (H d').
    + split; [|done]. intros _ d' ->. by rewrite value2member_map_value in E.
  - intros d'. split; [|by intros ->]. by destruct d, d'.
  - compute_done.
Qed.

(** ** What a call of get_driver does to the interpreter *)

Lemma registry_class_inj d d' m a :
  _DRIVER_IMPORTS !! d = Some (m, a) →
  _DRIVER_IMPORTS !! d' = Some (m, a) → d = d'.
Proof.
  intros H H'. destruct d, d'; try done; vm_compute in H, H';
    injection H as <- <-; discriminate H'.
Qed.

Lemma get_driver_Return_loaded installed d m a cls st st' :
  _DRIVER_IMPORTS !! d = Some (m, a) →
  get_driver installed (PyMember d) st = (Return cls, st') →
  cls = Attribute m a ∧ ∃ ns, st' !! m = Some ns ∧ a ∈ ns.
Proof.
  intros Hd. rewrite (get_driver_member _ _ _ _ _ Hd). unfold_py.
  destruct (__import__ installed m st) as [[_mod|e] st1] eqn:E; [|done].
  apply import_Return in E as [Hm Hst]. unfold getattr.
  case_bool_decide as Hin; [|done]. intros [= <- <-]. rewrite Hm.
  split; [done |]. eauto.
Qed.

(** X5.  The registry is one-to-one: two calls of [get_driver] that return
    the same class were made with the same member, and two calls of
    [get_driver_by_name] that return the same class were made with the same
    name, which is the name of that member. *)
Theorem same_class_same_identifier
    (installed installed' : string → option (list string))
    (d d' : DriverName) (driver_name driver_name' : string) (cls cls' : object)
    (st1 st1' st2 st2' st3 st3' st4 st4' : gmap string (list string)) :
  get_driver installed (PyMember d) st1 = (Return cls, st1') →
  get_driver installed' (PyMember d') st2 = (Return cls, st2') →
  get_driver_by_name installed driver_name st3 = (Return cls', st3') →
  get_driver_by_name installed' driver_name' st4 = (Return cls', st4') →
  d = d' ∧ driver_name = driver_name' ∧
  ∃ d'', driver_name = name d'' ∧
         get_driver installed (PyMember d'') st3 = (Return cls', st3').
Proof.
  assert (Hinj : ∀ i i' a b c s s' t t',
             get_driver i (PyMember a) s = (Return c, s') →
             get_driver i' (PyMember b) t = (Return c, t') → a = b).
  { intros i i' a b c s s' t t' Ha Hb.
    destruct (registry_total a) as [[m x] Hm].
    destruct (registry_total b) as [[m' x'] Hm'].
    apply (get_driver_Return_loaded _ _ _ _ _ _ _ Hm) in Ha as [-> _].
    apply (get_driver_Return_loaded _ _ _ _ _ _ _ Hm') in Hb as [[= <- <-] _].
    by eapply registry_class_inj. }
  intros H1 H2 H3 H4. split; [by eapply Hinj |].
  apply get_driver_by_name_Return in H3 as (a & -> & H3).
  apply get_driver_by_name_Return in H4 as (b & -> & H4).
  split; [|eauto]. f_equal. by eapply Hinj.
Qed.

Lemma same_class_same_identifier_witness :
  get_driver without_amazon (PyMember LOCAL) ∅ =
    (Return LocalDriver, (get_driver without_amazon (PyMember LOCAL) ∅).2) ∧
  get_driver full_installation (PyMember LOCAL) fresh_import =
    (Return LocalDriver, fresh_import) ∧
  get_driver_by_name without_amazon "LOCAL" ∅ =
    (Return LocalDriver, (get_driver without_amazon (PyMember LOCAL) ∅).2) ∧
  get_driver_by_name full_installation "LOCAL" fresh_import =
    (Return LocalDriver, fresh_import) ∧
  LOCAL = LOCAL ∧ "LOCAL" = "LOCAL" ∧
  ∃ d'', "LOCAL" = name d'' ∧
         get_driver without_amazon (PyMember d'') ∅ =
           (Return LocalDriver, (get_driver without_amazon (PyMember LOCAL) ∅).2).
Proof.
  split; [vm_compute; reflexivity |]. split; [vm_compute; reflexivity |].
  split; [vm_compute; reflexivity |]. split; [vm_compute; reflexivity |].
  apply (same_class_same_identifier without_amazon full_installation LOCAL LOCAL
           "LOCAL" "LOCAL" LocalDriver LocalDriver
           ∅ (get_driver without_amazon (PyMember LOCAL) ∅).2 fresh_import fresh_import
           ∅ (get_driver without_amazon (PyMember LOCAL) ∅).2 fresh_import fresh_import);
    vm_compute; reflexivity.
Defined.

(** X6.  Once [get_driver] has returned a class for a member, every later
    call for that member returns the same class and leaves [sys.modules]
    alone, whatever has been imported in between and whatever the
    installation has become. *)
Theorem get_driver_stays_resolved
    (installed installed' : string → option (list string))
    (d : DriverName) (cls : object) (st st1 st2 : gmap string (list string)) :
  get_driver installed (PyMember d) st = (Return cls, st1) →
  st1 ⊆ st2 →
  get_driver installed' (PyMember d) st2 = (Return cls, st2).
Proof.
  intros H Hsub. destruct (registry_total d) as [[m a] Hd].
  destruct (get_driver_Return_loaded _ _ _ _ _ _ _ Hd H) as (-> & ns & Hns & Hin).
  rewrite (get_driver_member _ _ _ _ _ Hd). unfold_py.
  rewrite (import_loaded _ _ ns) by (by eapply lookup_weaken).
  unfold getattr. simpl. by rewrite bool_decide_true.
Qed.

Lemma get_driver_stays_resolved_witness :
  get_driver without_amazon (PyMember LOCAL) ∅ =
    (Return LocalDriver, (get_driver without_amazon (PyMember LOCAL) ∅).2) ∧
  (get_driver without_amazon (PyMember LOCAL) ∅).2 ⊆
    (get_driver without_amazon (PyMember LOCAL) ∅).2 ∧
  get_driver (λ _, None) (PyMember LOCAL) (get_driver without_amazon (PyMember LOCAL) ∅).2 =
    (Return LocalDriver, (get_driver without_amazon (PyMember LOCAL) ∅).2).
Proof.
  split; [vm_compute; reflexivity |]. split; [reflexivity |].
  apply (get_driver_stays_resolved without_amazon (λ _, None) LOCAL LocalDriver ∅
           (get_driver without_amazon (PyMember LOCAL) ∅).2
           (get_driver without_amazon (PyMember LOCAL) ∅).2);
    [vm_compute; reflexivity | reflexivity].
Defined.

(** ** The module header and the installation *)

Section Provenance.

Variable installed : string → option (list string).

Implicit Types (st : gmap string (list string)).

(** Whatever is in [sys.modules] after an import was there before or was
    loaded as the installation provides it. *)
Lemma find_and_load_provenance chain r st st' k ns :
  find_and_load installed chain st = (r, st') →
  st' !! k = Some ns → st !! k = Some ns ∨ installed k = Some ns.
Proof.
  revert r st st'. induction chain as [|m parents IH]; intros r st st'; simpl.
  - intros [= <- <-]. by left.
  - destruct (st !! m) eqn:Em; [intros [= <- <-]; by left |]. unfold_py.
    destruct (find_and_load installed parents st) as [[[]|e'] st1] eqn:E.
    + unfold load. destruct (st1 !! m) eqn:E1; [intros [= <- <-]; by eapply IH |].
      destruct (installed m) as [ns'|] eqn:Ei; intros [= <- <-]; [|by eapply IH].
      destruct (decide (k = m)) as [-> | Hne].
      * rewrite lookup_insert_eq. intros [= <-]. by right.
      * rewrite lookup_insert_ne by done. by eapply IH.
    + intros [= <- <-]. by eapply IH.
Qed.

Lemma import_provenance module r st st' k ns :
  __import__ installed module st = (r, st') →
  st' !! k = Some ns → st !! k = Some ns ∨ installed k = Some ns.
Proof.
  unfold __import__. unfold_py.
  destruct (find_and_load installed (ancestors module) st) as [[[]|e] st1] eqn:E.
  - unfold sys_modules_getitem.
    destruct (st1 !! module); intros [= <- <-]; by eapply find_and_load_provenance.
  - intros [= <- <-]. by eapply find_and_load_provenance.
Qed.

Lemma exec_provenance s r st st' k ns :
  exec installed s st = (r, st') →
  st' !! k = Some ns → st !! k = Some ns ∨ installed k = Some ns.
Proof.
  destruct s as [m | m attrs]; simpl; unfold_py.
  - destruct (__import__ installed m st) as [[_mod|e] st1] eqn:E;
      intros [= <- <-]; by eapply import_provenance.
  - destruct (__import__ installed m st) as [[_mod|e] st1] eqn:E.
    + intros ->%from_import_state. by eapply import_provenance.
    + intros [= <- <-]. by eapply import_provenance.
Qed.

Lemma exec_all_provenance body r st st' k ns :
  exec_all installed body st = (r, st') →
  st' !! k = Some ns → st !! k = Some ns ∨ installed k = Some ns.
Proof.
  revert st. induction body as [|s body IH]; intros st; simpl.
  - intros [= <- <-]. by left.
  - unfold_py. destruct (exec installed s st) as [[[]|e] st1] eqn:E.
    + intros H Hk. destruct (IH _ H Hk) as [H1 | H1]; [|by right].
      by eapply exec_provenance.
    + intros [= <- <-]. by eapply exec_provenance.
Qed.


Lemma header_modules_not_package :
  Forall (λ s, statement_module s ≠ "cloudstorage") header.
Proof. compute_done. Qed.

(** A successful import of the package has every module of the header in
    [sys.modules], loaded before or as the installation provides it, and
    binding the names the header imports from it. *)
Lemma import_cloudstorage_provenance st0 st m attrs :
  import_cloudstorage installed st0 = (Return (), st) →
  FromImport m attrs ∈ header →
  ∃ ns, st !! m = Some ns ∧
        (st0 !! m = Some ns ∨ installed m = Some ns) ∧
        ∀ a, a ∈ attrs → a ∈ ns.
Proof.
  unfold import_cloudstorage.
  destruct (exec_all installed header _) as [[[]|e] st1] eqn:E; [|done].
  intros [= <-] Hin.
  assert (Hne : m ≠ "cloudstorage").
  { pose proof header_modules_not_package as Hall.
    rewrite Forall_forall in Hall. apply (Hall _ Hin). }
  destruct (exec_all_FromImport _ _ _ _ _ _ E Hin) as (ns & Hns & Hattrs).
  exists ns. rewrite lookup_insert_ne by done. split; [done |]. split; [|done].
  destruct (exec_all_provenance _ _ _ _ _ _ E Hns) as [H | H]; [|by right].
  rewrite lookup_insert_ne in H by done. by left.
Qed.

End Provenance.

(** X8.  A successful [import cloudstorage] has run every import of the
    header: each module the header imports from is in [sys.modules], either
    because it was loaded before or because the installation provides it,
    and it binds every name the header imports from it. *)
Theorem import_cloudstorage_needs_its_modules
    (installed : string → option (list string))
    (st0 st : gmap string (list string)) (module : string) (attrs : list string) :
  import_cloudstorage installed st0 = (Return (), st) →
  FromImport module attrs ∈ header →
  ∃ ns, st !! module = Some ns ∧
        (st0 !! module = Some ns ∨ installed module = Some ns) ∧
        (∀ a, a ∈ attrs → a ∈ ns) ∧
        st !! "cloudstorage" = Some module_globals.
Proof.
  intros H Hin.
  destruct (import_cloudstorage_provenance _ _ _ _ _ H Hin) as (ns & H1 & H2 & H3).
  exists ns. split; [done |]. split; [done |]. split; [done |].
  unfold import_cloudstorage in H.
  destruct (exec_all installed header _) as [[[]|e] st1]; [|done].
  injection H as <-. by rewrite lookup_insert_eq.
Qed.

Lemma import_cloudstorage_needs_its_modules_witness :
  import_cloudstorage full_installation ∅ = (Return (), fresh_import) ∧
  FromImport "cloudstorage.drivers.amazon" ["S3Driver"] ∈ header ∧
  ∃ ns, fresh_import !! "cloudstorage.drivers.amazon" = Some ns ∧
        ((∅ : gmap string (list string)) !! "cloudstorage.drivers.amazon" = Some ns ∨
         full_installation "cloudstorage.drivers.amazon" = Some ns) ∧
        (∀ a, a ∈ ["S3Driver"] → a ∈ ns) ∧
        fresh_import !! "cloudstorage" = Some module_globals.
Proof.
  split; [vm_compute; reflexivity |]. split; [compute_done |].
  apply (import_cloudstorage_needs_its_modules full_installation ∅ fresh_import
           "cloudstorage.drivers.amazon" ["S3Driver"]);
    [vm_compute; reflexivity | compute_done].
Defined.



(** ** When the package import succeeds *)

Section Availability.

Variable installed : string → option (list string).

Implicit Types (st : gmap string (list string)).

Lemma find_and_load_available chain st :
  Forall (λ p, is_Some (st !! p) ∨ is_Some (installed p)) chain →
  ∃ st', find_and_load installed chain st = (Return (), st').
Proof.
  induction chain as [|m parents IH]; intros Hall; simpl; [by eexists |].
  apply Forall_cons in Hall as [Hm Hall].
  destruct (st !! m) eqn:Em; [by eexists |]. unfold_py.
  destruct (IH Hall) as [st1 ->]. unfold load.
  destruct (st1 !! m); [by eexists |].
  destruct Hm as [[? Hm] | [ns Hm]]; [congruence |]. rewrite Hm. by eexists.
Qed.

Lemma from_import_available _mod attrs st :
  (∀ a, a ∈ attrs → a ∈ _mod.2) → from_import _mod attrs st = (Return (), st).
Proof.
  induction attrs as [|a attrs IH]; intros H; simpl; [done |].
  rewrite bool_decide_true by (apply H; constructor).
  apply IH. intros b Hb. apply H. by constructor.
Qed.

Lemma from_installation_preserved s r st st' :
  from_installation installed st →
  exec installed s st = (r, st') → from_installation installed st'.
Proof.
  intros Hinv H k ns Hk.
  destruct (exec_provenance _ _ _ _ _ _ _ H Hk) as [H1 | H1]; [by eapply Hinv | by right].
Qed.

Lemma available_unfold s st :
  available installed s = true →
  is_Some (st !! "cloudstorage") →
  Forall (λ p, is_Some (st !! p) ∨ is_Some (installed p))
         (ancestors (statement_module s)) ∧
  ∃ ns, installed (statement_module s) = Some ns ∧
        ∀ a, a ∈ statement_attrs s → a ∈ ns.
Proof.
  unfold available. intros [Hchain Hmod]%andb_true_iff Hpkg. split.
  - apply Forall_forall. intros p Hp.
    rewrite forallb_forall in Hchain. apply list_elem_of_In, Hchain in Hp.
    apply orb_true_iff in Hp as [Hp%String.eqb_eq | Hp%bool_decide_eq_true].
    + subst p. by left.
    + by right.
  - destruct (installed (statement_module s)) as [ns|]; [|done].
    exists ns. split; [done |]. intros a Ha.
    rewrite forallb_forall in Hmod. apply list_elem_of_In, Hmod in Ha.
    by apply bool_decide_eq_true in Ha.
Qed.

Lemma exec_available s st :
  from_installation installed st →
  is_Some (st !! "cloudstorage") →
  statement_module s ≠ "cloudstorage" →
  available installed s = true →
  ∃ st', exec installed s st = (Return (), st').
Proof.
  intros Hinv Hpkg Hne Hav.
  destruct (available_unfold _ _ Hav Hpkg) as (Hchain & ns & Hns & Hattrs).
  destruct (find_and_load_available _ _ Hchain) as [st1 Hst1].
  assert (Himp : __import__ installed (statement_module s) st =
                 (Return (statement_module s, ns), st1)).
  { unfold __import__. unfold_py. rewrite Hst1.
    destruct (ancestors_cons (statement_module s)) as [ps Hps].
    rewrite Hps in Hst1.
    destruct (find_and_load_loaded _ _ _ _ _ Hst1) as [ns1 Hns1].
    rewrite <- Hps in Hst1.
    destruct (find_and_load_provenance _ _ _ _ _ _ _ Hst1 Hns1) as [H | H].
    - destruct (Hinv _ _ H) as [? | H']; [done |].
      unfold sys_modules_getitem. rewrite Hns1. congruence.
    - unfold sys_modules_getitem. rewrite Hns1. congruence. }
  destruct s as [m | m attrs]; simpl in *; unfold_py; rewrite Himp.
  - by eexists.
  - exists st1. by apply from_import_available.
Qed.

Lemma exec_all_available body st :
  from_installation installed st →
  is_Some (st !! "cloudstorage") →
  Forall (λ s, statement_module s ≠ "cloudstorage") body →
  forallb (available installed) body = true →
  ∃ st', exec_all installed body st = (Return (), st').
Proof.
  revert st. induction body as [|s body IH]; intros st Hinv Hpkg Hne Hav; simpl.
  - by eexists.
  - apply Forall_cons in Hne as [Hs Hne]. simpl in Hav.
    apply andb_true_iff in Hav as [Hav1 Hav].
    destruct (exec_available _ _ Hinv Hpkg Hs Hav1) as [st1 Hst1].
    unfold_py. rewrite Hst1. apply IH; [| |done..].
    + by eapply from_installation_preserved.
    + destruct Hpkg as [ns Hpkg]. exists ns.
      eapply lookup_weaken; [done | by eapply exec_mono].
Qed.

End Availability.

(** X10.  [import cloudstorage] succeeds as soon as every module the header
    names, and the package [cloudstorage.drivers], can be imported and binds
    the names the header imports from it, in an interpreter whose loaded
    modules all come from that installation.  All five driver modules are
    loaded by then, so every later [get_driver] of a member returns. *)
Theorem import_cloudstorage_succeeds
    (installed : string → option (list string))
    (st0 : gmap string (list string)) :
  from_installation installed st0 →
  forallb (available installed) header = true →
  ∃ st, import_cloudstorage installed st0 = (Return (), st) ∧
        st !! "cloudstorage" = Some module_globals ∧
        registry_imported st.
Proof.
  intros Hinv Hav.
  destruct (exec_all_available installed header (<["cloudstorage" := []]> st0))
    as [st1 Hst1].
  - intros k ns. destruct (decide (k = "cloudstorage")) as [-> | Hne]; [by left |].
    rewrite lookup_insert_ne by done. apply Hinv.
  - rewrite lookup_insert_eq. by eexists.
  - apply header_modules_not_package.
  - done.
  - exists (<["cloudstorage" := module_globals]> st1).
    assert (H : import_cloudstorage installed st0 =
                (Return (), <["cloudstorage" := module_globals]> st1)).
    { unfold import_cloudstorage. by rewrite Hst1. }
    split; [done |]. split; [by rewrite lookup_insert_eq |].
    by eapply import_cloudstorage_imported.
Qed.

Lemma import_cloudstorage_succeeds_witness :
  from_installation full_installation ∅ ∧
  forallb (available full_installation) header = true ∧
  ∃ st, import_cloudstorage full_installation ∅ = (Return (), st) ∧
        st !! "cloudstorage" = Some module_globals ∧
        registry_imported st.
Proof.
  assert (H0 : from_installation full_installation ∅).
  { intros k ns H. by rewrite lookup_empty in H. }
  split; [exact H0 |]. split; [vm_compute; reflexivity |].
  apply (import_cloudstorage_succeeds full_installation ∅);
    [exact H0 | vm_compute; reflexivity].
Defined.
